(** * template-async-telegram-bot: the message providers, the update handlers
    and the entry point, embedded from [bot/messages.py], [bot/handlers.py]
    and [main.py].

    Python objects are modelled by the data they carry: [None] by [None] of an
    [option], an attribute that was never assigned by a missing value, an
    exception by a value of [exn].  Code that mutates [self] or sends a reply
    is written in a small state-and-exception monad. *)

From stdpp Require Import base option list strings gmap.
From Stdlib Require Import ZArith Ascii String.

Local Open Scope string_scope.

(** ** Python values, exceptions and effects *)

Module Py.

(** The exceptions that can travel through this code.  [AttributeError t a]
    is the failed lookup of attribute [a] on an object of type [t];
    [TelegramError] and [NetworkError] stand for what the Bot API call may
    raise. *)
Inductive exn : Type :=
| AttributeError (type_name attr : string)
| TelegramError (description : string)
| NetworkError (description : string).

Inductive result (A : Type) : Type :=
| Ok (a : A)
| Raise (e : exn).
Arguments Ok {A} a.
Arguments Raise {A} e.

(** A computation over a mutable state [S]: it returns or raises, and in
    both cases leaves a state behind (an exception rolls nothing back). *)
Definition M (S A : Type) : Type := S -> result A * S.

Definition ret {S A} (a : A) : M S A := fun s => (Ok a, s).

Definition raise {S A} (e : exn) : M S A := fun s => (Raise e, s).

Definition bind {S A B} (c : M S A) (k : A -> M S B) : M S B :=
  fun s =>
    match c s with
    | (Ok a, s') => k a s'
    | (Raise e, s') => (Raise e, s')
    end.

Definition lift {S A} (r : result A) : M S A := fun s => (r, s).

Definition get {S} : M S S := fun s => (Ok s, s).

Definition modify {S} (f : S -> S) : M S unit := fun s => (Ok tt, f s).

(** [bool(v)] for a value that is [None], [True] or [False]. *)
Definition truthy (v : option bool) : bool :=
  match v with
  | Some b => b
  | None => false
  end.

(** [f'{v}'] for a value that is [None] or a [str]: a string formats as
    itself, [None] as its name. *)
Definition fstring (v : option string) : string :=
  match v with
  | Some s => s
  | None => "None"
  end.

End Py.

Import Py.

Notation "x <- c ;; k" := (bind c (fun x => k))
  (at level 100, c at next level, right associativity).
Notation "c ;;; k" := (bind c (fun _ => k))
  (at level 100, k at level 200, right associativity).

(** ** bot/messages.py *)

Module messages.

(** [telegram.User], as far as this code reads it: [is_premium] is the
    optional flag of the Bot API ([None] when the field is absent). *)
Record User : Type := { id : Z; is_premium : option bool }.

(** The two concrete classes below the abstract [BaseMessages]; an
    instance has no attributes, so it is its class. *)
Inductive BaseMessages : Type :=
| RegularUser
| PremiumUser.

#[export] Instance BaseMessages_eq_dec : EqDecision BaseMessages.
Proof. solve_decision. Defined.

(** [class RegularUser(BaseMessages)] *)
Module RegularUser.
Definition start : string := "hello!".
Definition help : string := "You need to purchase a subscription".
Definition echo (text : option string) : string := fstring text.
End RegularUser.

(** [class PremiumUser(RegularUser)]: [start] and [help] are overridden,
    [echo] is found in the base class. *)
Module PremiumUser.
Definition start : string := "hello!".
Definition help : string := "help mock!".
Definition echo : option string -> string := RegularUser.echo.
End PremiumUser.

(** Method calls on an instance resolve through its class. *)
Definition start (self : BaseMessages) : string :=
  match self with
  | RegularUser => RegularUser.start
  | PremiumUser => PremiumUser.start
  end.

Definition help (self : BaseMessages) : string :=
  match self with
  | RegularUser => RegularUser.help
  | PremiumUser => PremiumUser.help
  end.

Definition echo (self : BaseMessages) (text : option string) : string :=
  match self with
  | RegularUser => RegularUser.echo text
  | PremiumUser => PremiumUser.echo text
  end.

(** [get_messages(user)].  The handlers pass [update.effective_user], which
    may be [None]; reading [is_premium] from it then raises. *)
Definition get_messages (user : option User) : result BaseMessages :=
  match user with
  | None => Raise (AttributeError "NoneType" "is_premium")
  | Some u =>
      if negb (truthy (is_premium u)) then Ok PremiumUser
      else Ok RegularUser
  end.

End messages.

(** ** bot/handlers.py *)

Module handlers.

(** [telegram.Message] and [telegram.Update], as far as the handlers read
    them.  Both [update.effective_user] and [update.message] are optional in
    the framework, and so is [message.text]. *)
Record Message : Type := { chat_id : Z; text : option string }.

Record Update : Type := {
  effective_user : option messages.User;
  message : option Message
}.

(** One outbound text message: the chat it goes to and its text. *)
Record Reply : Type := { to_chat : Z; body : string }.

(** The attributes of a handler instance.  [__init__] assigns [user];
    [messages] does not exist until [__call__] first assigns it. *)
Record BaseHandler : Type := {
  user : option messages.User;
  messages : option messages.BaseMessages
}.

(** [BaseHandler.__init__] *)
Definition __init__ : BaseHandler := {| user := None; messages := None |}.

(** The three concrete subclasses; they differ in [handle] only. *)
Inductive HandlerClass : Type :=
| StartHandler
| HelpHandler
| EchoHandler.

Definition class_name (c : HandlerClass) : string :=
  match c with
  | StartHandler => "StartHandler"
  | HelpHandler => "HelpHandler"
  | EchoHandler => "EchoHandler"
  end.

(** What one invocation can touch: the handler instance it is called on and
    the messages sent so far. *)
Record Frame : Type := { self : BaseHandler; outbox : list Reply }.

Definition set_user (v : option messages.User) (fr : Frame) : Frame :=
  {| self := {| user := v; messages := messages (self fr) |};
     outbox := outbox fr |}.

Definition set_messages (v : messages.BaseMessages) (fr : Frame) : Frame :=
  {| self := {| user := user (self fr); messages := Some v |};
     outbox := outbox fr |}.

Definition push_reply (r : Reply) (fr : Frame) : Frame :=
  {| self := self fr; outbox := (outbox fr ++ [r])%list |}.

(** The frame once [__call__] has assigned both [self.user] and
    [self.messages] for an update. *)
Definition resolved (update : Update) (p : messages.BaseMessages)
    (fr : Frame) : Frame :=
  set_messages p (set_user (effective_user update) fr).

(** [self.messages] *)
Definition get_self_messages (c : HandlerClass)
  : M Frame messages.BaseMessages :=
  fr <- get ;;
  match messages (self fr) with
  | Some p => ret p
  | None => raise (AttributeError (class_name c) "messages")
  end.

(** [update.message.<attr>]: the lookup on [update.message], which fails
    when the update carries no message. *)
Definition get_message_attr (update : Update) (attr : string)
  : M Frame Message :=
  match message update with
  | Some m => ret m
  | None => raise (AttributeError "NoneType" attr)
  end.

Section Callbacks.

(** The Bot API call behind [Message.reply_text], which is not part of this
    repository: [None] when the text is delivered to the chat, [Some e] when
    the call raises [e]. *)
Variable send_message : Z -> string -> option exn.

(** [await message.reply_text(text)] *)
Definition reply_text (m : Message) (s : string) : M Frame unit :=
  match send_message (chat_id m) s with
  | Some e => raise e
  | None => modify (push_reply {| to_chat := chat_id m; body := s |})
  end.

(** The argument each subclass's [handle] builds for [reply_text]:
    [self.messages.start()], [self.messages.help()] and
    [self.messages.echo(update.message.text)]. *)
Definition reply_argument (c : HandlerClass) (p : messages.BaseMessages)
    (m : Message) : string :=
  match c with
  | StartHandler => messages.start p
  | HelpHandler => messages.help p
  | EchoHandler => messages.echo p (text m)
  end.

(** [handle] of the three subclasses, which is the one statement
    [await update.message.reply_text(...)] in each.  The callee
    [update.message.reply_text] is evaluated before the argument, which
    reads [self.messages]. *)
Definition handle (c : HandlerClass) (update : Update) : M Frame unit :=
  m <- get_message_attr update "reply_text" ;;
  p <- get_self_messages c ;;
  reply_text m (reply_argument c p m).

(** [BaseHandler.__call__] *)
Definition __call__ (c : HandlerClass) (update : Update) : M Frame unit :=
  modify (set_user (effective_user update)) ;;;
  fr <- get ;;
  p <- lift (messages.get_messages (user (self fr))) ;;
  modify (set_messages p) ;;;
  handle c update.

(** The framework calling one registered callback for one update after the
    other: every call runs on the instance as the call before left it, and
    a call that raises ends there, the next update being handled all the
    same.  The results are returned in the order of the updates. *)
Fixpoint call_each (c : HandlerClass) (updates : list Update) (fr : Frame)
  : list (result unit) * Frame :=
  match updates with
  | [] => ([], fr)
  | update :: rest =>
      let '(r, fr1) := __call__ c update fr in
      let '(rs, fr2) := call_each c rest fr1 in
      (r :: rs, fr2)
  end.

End Callbacks.

(** *** Registration *)

(** A handler instance: an object of one of the three classes, with its
    attributes. *)
Record HandlerObject : Type := {
  class_of : HandlerClass;
  attrs : BaseHandler
}.

(** [StartHandler()], [HelpHandler()], [EchoHandler()] *)
Definition new (c : HandlerClass) : HandlerObject :=
  {| class_of := c; attrs := __init__ |}.

(** [telegram.ext.filters]: the two filters the code names and the two
    operators, [&] and [~], it combines them with. *)
Inductive Filter : Type :=
| TEXT
| COMMAND
| And_ (f g : Filter)
| Invert (f : Filter).

(** The framework's two handler kinds, each holding its callback. *)
Inductive Handler : Type :=
| CommandHandler (command : string) (callback : HandlerObject)
| MessageHandler (filters : Filter) (callback : HandlerObject).

Definition callback_of (h : Handler) : HandlerObject :=
  match h with
  | CommandHandler _ cb => cb
  | MessageHandler _ cb => cb
  end.

Definition with_callback (h : Handler) (cb : HandlerObject) : Handler :=
  match h with
  | CommandHandler name _ => CommandHandler name cb
  | MessageHandler f _ => MessageHandler f cb
  end.

(** [telegram.ext.Application], as far as this code configures it. *)
Record Application : Type := {
  token : string;
  handlers : list Handler
}.

(** The application that [Application.builder().token(t).build()] returns
    when the builder accepts the token: it is configured with [t] and has no
    handler registered yet.  That the builder may raise instead is part of
    the call in [main.py], below. *)
Definition build (t : string) : Application :=
  {| token := t; handlers := [] |}.

(** [application.add_handler(h)]: handlers are kept in registration
    order. *)
Definition add_handler (h : Handler) (application : Application)
  : Application :=
  {| token := token application;
     handlers := (handlers application ++ [h])%list |}.

(** [setup_handlers(application)] *)
Definition setup_handlers (application : Application) : Application :=
  add_handler (MessageHandler (And_ TEXT (Invert COMMAND)) (new EchoHandler))
    (add_handler (CommandHandler "help" (new HelpHandler))
       (add_handler (CommandHandler "start" (new StartHandler))
          application)).

(** *** The framework's side of a registration *)

(** Modelled from the spec: [filters.TEXT] belongs to the framework; section
    4.2 has the echo handler triggered on any plain text message, so the
    filter accepts a message that carries a text. *)
Definition is_text (m : Message) : bool :=
  match text m with
  | Some _ => true
  | None => false
  end.

(** Modelled from the spec: [filters.COMMAND] belongs to the framework;
    section 8 calls its messages command-prefixed and gives [/unknown] as one,
    so the filter accepts a text that begins with the prefix [/]. *)
Definition is_command (m : Message) : bool :=
  match text m with
  | Some s => String.prefix "/" s
  | None => false
  end.

Fixpoint check_filter (f : Filter) (m : Message) : bool :=
  match f with
  | TEXT => is_text m
  | COMMAND => is_command m
  | And_ f1 f2 => check_filter f1 m && check_filter f2 m
  | Invert f1 => negb (check_filter f1 m)
  end.

(** The text up to its first space. *)
Fixpoint first_word (s : string) : string :=
  match s with
  | EmptyString => EmptyString
  | String c rest =>
      if Ascii.eqb c " "%char then EmptyString else String c (first_word rest)
  end.

(** Modelled from the spec: the trigger of [CommandHandler] belongs to the
    framework; section 4.2 has the start handler triggered on a [/start]
    command, so the trigger accepts a text whose first word is the prefix
    [/] followed by the command's name. *)
Definition is_command_for (name : string) (m : Message) : bool :=
  match text m with
  | Some s => String.eqb (first_word s) ("/" +:+ name)
  | None => false
  end.

Definition check_update (h : Handler) (update : Update) : bool :=
  match message update with
  | None => false
  | Some m =>
      match h with
      | CommandHandler name _ => is_command_for name m
      | MessageHandler f _ => check_filter f m
      end
  end.

Section Dispatch.

Variable send_message : Z -> string -> option exn.

(** The framework calling a registered callback: [__call__] runs on the
    registered instance, and what it leaves in the instance stays there. *)
Definition invoke (cb : HandlerObject) (update : Update) (out : list Reply)
  : result unit * HandlerObject * list Reply :=
  let '(r, fr) :=
    __call__ send_message (class_of cb) update
      {| self := attrs cb; outbox := out |} in
  (r, {| class_of := class_of cb; attrs := self fr |}, outbox fr).

(** Modelled from the spec: the framework's dispatch (section 2: the
    framework receives an update and invokes the registered handler
    callback; section 9: an ordered list of predicate and handler pairs).
    The first handler whose trigger accepts the update is invoked; what its
    callback raises ends in the framework, which reports it here as the
    result.  [None] when no handler is triggered. *)
Fixpoint dispatch (hs : list Handler) (update : Update) (out : list Reply)
  : option (result unit) * list Handler * list Reply :=
  match hs with
  | [] => (None, [], out)
  | h :: rest =>
      if check_update h update then
        let '(r, cb, out') := invoke (callback_of h) update out in
        (Some r, with_callback h cb :: rest, out')
      else
        let '(r, rest', out') := dispatch rest update out in
        (r, h :: rest', out')
  end.

Definition process_update (application : Application) (update : Update)
    (out : list Reply)
  : option (result unit) * Application * list Reply :=
  let '(r, hs, out') := dispatch (handlers application) update out in
  (r, {| token := token application; handlers := hs |}, out').

End Dispatch.

End handlers.

(** ** main.py *)

Module main.

(** The process as [main] sees it: [os.environ] when [main] starts (the
    module has called [load_dotenv()] before), and the names of the variables
    that the code of [main.py] has asked [os.getenv] for so far. *)
Record Process : Type := {
  environ : gmap string string;
  getenv_calls : list string
}.

(** [os.getenv(key, default)] *)
Definition getenv (key default_ : string) : M Process string :=
  fun p =>
    (Ok (default default_ (environ p !! key)),
     {| environ := environ p;
        getenv_calls := (getenv_calls p ++ [key])%list |}).

Section Startup.

(** The framework's application builder, which is not part of this
    repository: [build_raises env t] is [Some e] when building an application
    for the token [t], in a process whose environment is [env], raises [e],
    and [None] when the builder returns the application. *)
Variable build_raises : gmap string string -> string -> option exn.

(** [tg_ext.Application.builder().token(t).build()] *)
Definition build_application (t : string) : M Process handlers.Application :=
  p <- get ;;
  match build_raises (environ p) t with
  | Some e => raise e
  | None => ret (handlers.build t)
  end.

(** [main()], up to the point where [application.run_polling()] takes over:
    the result is the application that starts polling.  An exception of the
    builder leaves [main] before [setup_handlers] is reached. *)
Definition main : M Process handlers.Application :=
  telegram_token <- getenv "TOKEN" "" ;;
  application <- build_application telegram_token ;;
  let application := handlers.setup_handlers application in
  ret application.

End Startup.

End main.

(** ** Sample users, updates and Bot API behaviours *)

Module samples.

Import messages handlers.

Local Open Scope Z_scope.

(** A user without the premium flag, one with the flag true and one with
    the flag false. *)
Definition alice : User := {| id := 1; is_premium := None |}.
Definition bob : User := {| id := 2; is_premium := Some true |}.
Definition carol : User := {| id := 3; is_premium := Some false |}.

(** A text message from a user, in the chat of the user's id. *)
Definition text_update (usr : User) (t : string) : Update :=
  {| effective_user := Some usr;
     message := Some {| chat_id := id usr; text := Some t |} |}.

(** An update without a user. *)
Definition anonymous_update (t : string) : Update :=
  {| effective_user := None;
     message := Some {| chat_id := 9; text := Some t |} |}.

(** A Bot API that delivers everything, and one that is unreachable. *)
Definition delivers : Z -> string -> option exn := fun _ _ => None.
Definition unreachable : Z -> string -> option exn :=
  fun _ _ => Some (NetworkError "timed out").

(** The application as [main] sets it up for the token "secret". *)
Definition application : Application := setup_handlers (build "secret").

(** The message of [text_update alice "ping"], a frame around a handler
    instance that was never called, and the registration of the echo
    handler. *)
Definition ping : Message := {| chat_id := 1; text := Some "ping" |}.

Definition fresh : Frame := {| self := __init__; outbox := [] |}.

Definition echo_registration : Handler :=
  MessageHandler (And_ TEXT (Invert COMMAND)) (new EchoHandler).

(** A message without a text (a photo, say) from a user. *)
Definition textless_update (usr : User) : Update :=
  {| effective_user := Some usr;
     message := Some {| chat_id := id usr; text := None |} |}.

(** A frame around a handler instance that was last called for [bob]. *)
Definition used : Frame :=
  {| self := {| user := Some bob; messages := Some RegularUser |};
     outbox := [{| to_chat := 2; body := "hello!" |}] |}.

(** An update that carries a user and no message (an edited message or a
    callback query, say). *)
Definition messageless_update (usr : User) : Update :=
  {| effective_user := Some usr; message := None |}.

(** A builder that refuses the empty token and accepts every other one,
    whatever the environment. *)
Definition rejects_empty : gmap string string -> string -> option exn :=
  fun _ t => if String.eqb t "" then Some (TelegramError "InvalidToken")
             else None.

End samples.

(** * Properties *)

Import messages handlers.

(** ** The message providers *)

Section Providers.

Implicit Types (u : User) (p : BaseMessages) (s : string).

Lemma get_messages_some u :
  get_messages (Some u) =
  Ok (if truthy (is_premium u) then RegularUser else PremiumUser).
Proof. unfold get_messages. by destruct (truthy (is_premium u)). Qed.

Lemma start_constant p : start p = "hello!".
Proof. by destruct p. Qed.

Lemma echo_fstring p (t : option string) : echo p t = fstring t.
Proof. by destruct p. Qed.

(** C1: a user whose premium flag is false gets the provider of class
    [PremiumUser], whose [help()] is "help mock!"; a user whose flag is true
    gets the provider of class [RegularUser], whose [help()] is "You need to
    purchase a subscription". *)
Theorem get_messages_by_flag u (b : bool) (Hflag : is_premium u = Some b) :
  exists p,
    get_messages (Some u) = Ok p
    /\ (b = false -> p = PremiumUser /\ help p = "help mock!")
    /\ (b = true ->
        p = RegularUser /\ help p = "You need to purchase a subscription").
Proof.
  rewrite get_messages_some, Hflag. simpl.
  destruct b; eexists; (split; [reflexivity |]); split; intros Hb;
    try discriminate Hb; by split.
Qed.

(** C2: [echo] returns its string argument unchanged, for both provider
    classes; in particular the empty string and a string that begins with
    the command prefix come back as they are. *)
Theorem echo_identity p s :
  echo p (Some s) = s
  /\ echo p (Some "") = ""
  /\ echo p (Some ("/" +:+ s)) = "/" +:+ s.
Proof. by rewrite !echo_fstring. Qed.

(** C3: whatever the premium flag of the user, set or not, the provider
    selected for the user answers [start()] with "hello!". *)
Theorem start_for_every_user u :
  exists p, get_messages (Some u) = Ok p /\ start p = "hello!".
Proof.
  rewrite get_messages_some. eexists. split; [reflexivity |].
  apply start_constant.
Qed.

(** C7: the two provider classes agree on [start] and, for every argument,
    on [echo]; they differ on [help]. *)
Theorem variants_differ_in_help_only :
  start PremiumUser = start RegularUser
  /\ (forall t : option string, echo PremiumUser t = echo RegularUser t)
  /\ help PremiumUser <> help RegularUser.
Proof.
  split; [reflexivity |]. split; [reflexivity |]. discriminate.
Qed.

(** C10: a user whose premium flag is absent counts as not premium: the
    provider is of class [PremiumUser] and its [help()] is "help mock!". *)
Theorem get_messages_flag_absent u (Hflag : is_premium u = None) :
  get_messages (Some u) = Ok PremiumUser /\ help PremiumUser = "help mock!".
Proof. rewrite get_messages_some, Hflag. by split. Qed.

End Providers.

(** ** The handlers *)

Section Handlers.

Variable send_message : Z -> string -> option exn.

Implicit Types (c : HandlerClass) (update : Update) (fr : Frame)
  (m : Message) (p : BaseMessages) (e : exn).

(** [__call__] step by step: each step either raises, and the exception is
    the result, or goes on to the next. *)
Lemma call_cases c update fr :
  __call__ send_message c update fr =
  match get_messages (effective_user update) with
  | Raise e => (Raise e, set_user (effective_user update) fr)
  | Ok p =>
      match message update with
      | None =>
          (Raise (AttributeError "NoneType" "reply_text"),
           resolved update p fr)
      | Some m =>
          match send_message (chat_id m) (reply_argument c p m) with
          | Some e => (Raise e, resolved update p fr)
          | None =>
              (Ok tt,
               push_reply
                 {| to_chat := chat_id m; body := reply_argument c p m |}
                 (resolved update p fr))
          end
      end
  end.
Proof.
  unfold __call__, handle, bind, modify, get, lift, resolved. simpl.
  destruct (get_messages (effective_user update)) as [p | e]; [| done].
  unfold get_message_attr.
  destruct (message update) as [m |]; [| done].
  unfold ret, get_self_messages, bind, get, reply_text. simpl.
  unfold ret.
  destruct (send_message (chat_id m) (reply_argument c p m)); done.
Qed.

Lemma call_user c update fr :
  user (self (__call__ send_message c update fr).2) = effective_user update.
Proof.
  rewrite call_cases.
  destruct (get_messages (effective_user update)) as [p | e']; [| done].
  destruct (message update) as [m |]; [| done].
  by destruct (send_message (chat_id m) (reply_argument c p m)).
Qed.

(** An invocation that raises has sent nothing. *)
Lemma call_raise_outbox c update fr e :
  (__call__ send_message c update fr).1 = Raise e ->
  outbox (__call__ send_message c update fr).2 = outbox fr.
Proof.
  rewrite call_cases.
  destruct (get_messages (effective_user update)) as [p | e']; [| done].
  destruct (message update) as [m |]; [| done].
  by destruct (send_message (chat_id m) (reply_argument c p m)).
Qed.

(** The outbox only grows, by what the invocation sends, and what it sends
    and returns does not depend on the frame it starts from. *)
Lemma call_outcome c update :
  exists (r : result unit) (sent : list Reply),
    forall fr,
      (__call__ send_message c update fr).1 = r
      /\ outbox (__call__ send_message c update fr).2
         = (outbox fr ++ sent)%list.
Proof.
  destruct (get_messages (effective_user update)) as [p | e] eqn:Hp.
  - destruct (message update) as [m |] eqn:Hm.
    + destruct (send_message (chat_id m) (reply_argument c p m))
        as [e |] eqn:Hs.
      * exists (Raise e), []. intros fr.
        rewrite call_cases, Hp, Hm, Hs. simpl. by rewrite app_nil_r.
      * exists (Ok tt),
          [{| to_chat := chat_id m; body := reply_argument c p m |}].
        intros fr. by rewrite call_cases, Hp, Hm, Hs.
    + exists (Raise (AttributeError "NoneType" "reply_text")), [].
      intros fr. rewrite call_cases, Hp, Hm. simpl. by rewrite app_nil_r.
  - exists (Raise e), []. intros fr.
    rewrite call_cases, Hp. simpl. by rewrite app_nil_r.
Qed.

(** C4, as the code has it: for an update that carries a user and a
    message, each handler returns normally and sends exactly one reply, to
    the chat of the message, provided the Bot API delivers it:
    [StartHandler] sends
    [start()] of the user's provider, [HelpHandler] its [help()],
    [EchoHandler] its [echo] of the message text; so a message with text
    "ping" is answered by the one reply "ping". *)
Theorem handlers_reply_once update fr (usr : User) m
    (Huser : effective_user update = Some usr)
    (Hmessage : message update = Some m) :
  exists p,
    get_messages (Some usr) = Ok p
    /\ (send_message (chat_id m) (start p) = None ->
        (__call__ send_message StartHandler update fr).1 = Ok tt
        /\ outbox (__call__ send_message StartHandler update fr).2
           = (outbox fr ++ [{| to_chat := chat_id m; body := start p |}])%list)
    /\ (send_message (chat_id m) (help p) = None ->
        (__call__ send_message HelpHandler update fr).1 = Ok tt
        /\ outbox (__call__ send_message HelpHandler update fr).2
           = (outbox fr ++ [{| to_chat := chat_id m; body := help p |}])%list)
    /\ (send_message (chat_id m) (echo p (text m)) = None ->
        (__call__ send_message EchoHandler update fr).1 = Ok tt
        /\ outbox (__call__ send_message EchoHandler update fr).2
           = (outbox fr
              ++ [{| to_chat := chat_id m; body := echo p (text m) |}])%list)
    /\ (text m = Some "ping" ->
        send_message (chat_id m) "ping" = None ->
        outbox (__call__ send_message EchoHandler update fr).2
        = (outbox fr ++ [{| to_chat := chat_id m; body := "ping" |}])%list).
Proof.
  rewrite get_messages_some.
  eexists. split; [reflexivity |].
  set (p := if truthy (is_premium usr) then RegularUser else PremiumUser).
  assert (Hp : get_messages (effective_user update) = Ok p)
    by (rewrite Huser; apply get_messages_some).
  split; [| split; [| split]].
  1-3: intros Hsend; rewrite call_cases, Hp, Hmessage; simpl;
    by rewrite Hsend.
  intros Htext Hsend.
  rewrite call_cases, Hp, Hmessage. simpl.
  rewrite echo_fstring, Htext. simpl. by rewrite Hsend.
Qed.

(** C8: an exception raised while the provider of the user is resolved,
    while [update.message.reply_text] is looked up or by the Bot API call is
    the result of the callback as it was raised, and the invocation has sent
    no reply. *)
Theorem exceptions_propagate c update fr e
    (Hraised :
      get_messages (effective_user update) = Raise e
      \/ (exists p,
            get_messages (effective_user update) = Ok p
            /\ message update = None
            /\ e = AttributeError "NoneType" "reply_text")
      \/ (exists p m,
            get_messages (effective_user update) = Ok p
            /\ message update = Some m
            /\ send_message (chat_id m) (reply_argument c p m) = Some e)) :
  (__call__ send_message c update fr).1 = Raise e
  /\ outbox (__call__ send_message c update fr).2 = outbox fr.
Proof.
  assert (Hres : (__call__ send_message c update fr).1 = Raise e).
  { rewrite call_cases.
    destruct Hraised as [Hp | [(p & Hp & Hm & ->) | (p & m & Hp & Hm & Hs)]].
    - by rewrite Hp.
    - by rewrite Hp, Hm.
    - by rewrite Hp, Hm, Hs. }
  split; [exact Hres |]. by apply call_raise_outbox with e.
Qed.

(** C6, as the code has it: what an invocation returns and sends is fixed by
    its own update (and by the Bot API), whatever an earlier invocation left
    in the handler instance; the invocation itself assigns [self.user], and
    [self.messages] once the provider is resolved, and these stay in the
    instance when it ends. *)
Theorem invocation_reads_no_earlier_state c update :
  (exists (r : result unit) (sent : list Reply),
      forall fr,
        (__call__ send_message c update fr).1 = r
        /\ outbox (__call__ send_message c update fr).2
           = (outbox fr ++ sent)%list)
  /\ (forall fr,
        user (self (__call__ send_message c update fr).2)
        = effective_user update)
  /\ (forall fr p,
        get_messages (effective_user update) = Ok p ->
        messages (self (__call__ send_message c update fr).2) = Some p).
Proof.
  split; [apply call_outcome |]. split; [intros fr; apply call_user |].
  intros fr p Hp. rewrite call_cases, Hp.
  destruct (message update) as [m |]; [| done].
  by destruct (send_message (chat_id m) (reply_argument c p m)).
Qed.

End Handlers.

(** ** Registration and dispatch *)

Section Registration.

Implicit Types (h : Handler) (update : Update) (m : Message).

Lemma setup_handlers_build (t : string) :
  handlers (setup_handlers (build t)) =
  [CommandHandler "start" (new StartHandler);
   CommandHandler "help" (new HelpHandler);
   MessageHandler (And_ TEXT (Invert COMMAND)) (new EchoHandler)].
Proof. reflexivity. Qed.

Lemma echo_filter_accepts m :
  check_filter (And_ TEXT (Invert COMMAND)) m = true
  <-> is_text m = true /\ is_command m = false.
Proof.
  simpl. rewrite andb_true_iff, negb_true_iff. reflexivity.
Qed.

Lemma is_command_prefixed m (s : string) :
  text m = Some ("/" +:+ s) -> is_command m = true.
Proof.
  unfold is_command. intros ->. simpl. by destruct s.
Qed.

(** A message that is a command for some handler is a command for the
    [COMMAND] filter. *)
Lemma is_command_for_is_command (name : string) m :
  is_command_for name m = true -> is_command m = true.
Proof.
  unfold is_command_for, is_command.
  destruct (text m) as [s |]; [| done].
  intros Heq. apply String.eqb_eq in Heq.
  destruct s as [| a s]; [done |]. simpl in Heq.
  destruct (Ascii.eqb a " ") eqn:Ha; [done |].
  injection Heq as -> _. simpl. by destruct s.
Qed.

(** The three triggers that [setup_handlers] registers exclude each other,
    so at most one of its handlers is invoked for an update. *)
Lemma registered_triggers_exclusive update (cb1 cb2 cb3 : HandlerObject) :
  (check_update (CommandHandler "start" cb1) update = true ->
   check_update (CommandHandler "help" cb2) update = false)
  /\ (forall name : string,
        check_update (CommandHandler name cb1) update = true ->
        check_update (MessageHandler (And_ TEXT (Invert COMMAND)) cb3) update
        = false).
Proof.
  unfold check_update. destruct (message update) as [m |]; [| done].
  split.
  - unfold is_command_for. destruct (text m) as [s |]; [| done].
    intros Hstart. apply String.eqb_eq in Hstart. by rewrite Hstart.
  - intros name Hname. simpl.
    by rewrite (is_command_for_is_command name m Hname), andb_false_r.
Qed.

(** C5: the handler that [setup_handlers] registers for [EchoHandler] is
    triggered by exactly the updates whose message is a text and not a
    command; a message whose text begins with the command prefix does not
    trigger it. *)
Theorem echo_skips_commands (t : string) h update
    (Hregistered : h ∈ handlers (setup_handlers (build t)))
    (Hecho : class_of (callback_of h) = EchoHandler) :
  (check_update h update = true
   <-> exists m,
        message update = Some m /\ is_text m = true /\ is_command m = false)
  /\ (forall m (s : string),
        message update = Some m ->
        text m = Some ("/" +:+ s) ->
        check_update h update = false).
Proof.
  rewrite setup_handlers_build in Hregistered.
  repeat (apply elem_of_cons in Hregistered as [-> | Hregistered]);
    try discriminate Hecho; [| by apply elem_of_nil in Hregistered].
  unfold check_update. split.
  - destruct (message update) as [m |].
    + rewrite echo_filter_accepts. split.
      * intros H. by exists m.
      * by intros (m' & [= <-] & H).
    + split; [done |]. by intros (m' & [=] & _).
  - intros m s -> Htext. simpl.
    by rewrite (is_command_prefixed m s Htext), andb_false_r.
Qed.

End Registration.

(** ** The entry point *)

Section EntryPoint.

Variable build_raises : gmap string string -> string -> option exn.

(** C9: [main] calls [os.getenv] once, for the variable [TOKEN] and nothing
    else, whether or not the builder then raises; the token it hands to the
    builder is the value of that variable, taken as it is, and the empty
    string when the variable is not set; [main] checks nothing itself: it
    raises exactly what the builder raises for that token, and otherwise
    sets up the application the builder made for it. *)
Theorem main_reads_token_once (env : gmap string string)
    (calls : list string) :
  (main.main build_raises
     {| main.environ := env; main.getenv_calls := calls |}).2
  = {| main.environ := env; main.getenv_calls := (calls ++ ["TOKEN"])%list |}
  /\ (main.main build_raises
        {| main.environ := env; main.getenv_calls := calls |}).1
     = match build_raises env (default "" (env !! "TOKEN")) with
       | Some e => Raise e
       | None => Ok (setup_handlers (build (default "" (env !! "TOKEN"))))
       end
  /\ (main.main build_raises
        {| main.environ := delete "TOKEN" env;
           main.getenv_calls := calls |}).1
     = match build_raises (delete "TOKEN" env) "" with
       | Some e => Raise e
       | None => Ok (setup_handlers (build ""))
       end.
Proof.
  unfold main.main, main.getenv, main.build_application, bind, get. simpl.
  rewrite lookup_delete_eq. simpl.
  destruct (build_raises env (default "" (env !! "TOKEN")));
    destruct (build_raises (delete "TOKEN" env) ""); done.
Qed.

End EntryPoint.

(** ** The model at work, and the claims at concrete inputs *)

Section Concrete.

Import samples.

Local Open Scope Z_scope.

(** A plain text is answered by the echo handler, a command by its own
    handler, and a command without a handler by nobody. *)
Example dispatch_ping :
  (process_update delivers application (text_update alice "ping") []).2
  = [{| to_chat := 1; body := "ping" |}].
Proof. reflexivity. Qed.

Example dispatch_start :
  (process_update delivers application (text_update bob "/start") []).2
  = [{| to_chat := 2; body := "hello!" |}].
Proof. reflexivity. Qed.

Example dispatch_help :
  (process_update delivers application (text_update bob "/help") []).2
  = [{| to_chat := 2; body := "You need to purchase a subscription" |}].
Proof. reflexivity. Qed.

Example dispatch_unknown_command :
  process_update delivers application (text_update alice "/unknown") []
  = (None, application, []).
Proof. reflexivity. Qed.

Example dispatch_unreachable :
  process_update unreachable application (text_update alice "ping") []
  = (Some (Raise (NetworkError "timed out")),
     (process_update delivers application (text_update alice "ping") []).1.2,
     []).
Proof. reflexivity. Qed.

Lemma get_messages_by_flag_witness :
  (is_premium carol = Some false
   /\ exists p,
       get_messages (Some carol) = Ok p
       /\ (false = false -> p = PremiumUser /\ help p = "help mock!")
       /\ (false = true ->
           p = RegularUser
           /\ help p = "You need to purchase a subscription"))
  /\ (is_premium bob = Some true
      /\ exists p,
          get_messages (Some bob) = Ok p
          /\ (true = false -> p = PremiumUser /\ help p = "help mock!")
          /\ (true = true ->
              p = RegularUser
              /\ help p = "You need to purchase a subscription")).
Proof.
  split; (split; [reflexivity |]).
  - apply (get_messages_by_flag carol false). reflexivity.
  - apply (get_messages_by_flag bob true). reflexivity.
Defined.

Lemma get_messages_flag_absent_witness :
  is_premium alice = None
  /\ get_messages (Some alice) = Ok PremiumUser
  /\ help PremiumUser = "help mock!".
Proof.
  split; [reflexivity |].
  apply (get_messages_flag_absent alice). reflexivity.
Defined.

Lemma handlers_reply_once_witness :
  effective_user (text_update alice "ping") = Some alice
  /\ message (text_update alice "ping") = Some ping
  /\ exists p,
      get_messages (Some alice) = Ok p
      /\ (delivers 1 (start p) = None ->
          (__call__ delivers StartHandler (text_update alice "ping") fresh).1
          = Ok tt
          /\ outbox
               (__call__ delivers StartHandler
                  (text_update alice "ping") fresh).2
             = (outbox fresh ++ [{| to_chat := 1; body := start p |}])%list)
      /\ (delivers 1 (help p) = None ->
          (__call__ delivers HelpHandler (text_update alice "ping") fresh).1
          = Ok tt
          /\ outbox
               (__call__ delivers HelpHandler
                  (text_update alice "ping") fresh).2
             = (outbox fresh ++ [{| to_chat := 1; body := help p |}])%list)
      /\ (delivers 1 (echo p (Some "ping")) = None ->
          (__call__ delivers EchoHandler (text_update alice "ping") fresh).1
          = Ok tt
          /\ outbox
               (__call__ delivers EchoHandler
                  (text_update alice "ping") fresh).2
             = (outbox fresh
                ++ [{| to_chat := 1; body := echo p (Some "ping") |}])%list)
      /\ (Some "ping" = Some "ping" ->
          delivers 1 "ping" = None ->
          outbox
            (__call__ delivers EchoHandler (text_update alice "ping") fresh).2
          = (outbox fresh ++ [{| to_chat := 1; body := "ping" |}])%list).
Proof.
  split; [reflexivity |]. split; [reflexivity |].
  apply (handlers_reply_once delivers (text_update alice "ping") fresh
           alice ping); reflexivity.
Defined.

Lemma echo_skips_commands_witness :
  echo_registration ∈ handlers (setup_handlers (build "secret"))
  /\ class_of (callback_of echo_registration) = EchoHandler
  /\ (check_update echo_registration (text_update alice "/unknown") = true
      <-> exists m,
           message (text_update alice "/unknown") = Some m
           /\ is_text m = true /\ is_command m = false)
  /\ (forall m (s : string),
        message (text_update alice "/unknown") = Some m ->
        text m = Some ("/" +:+ s) ->
        check_update echo_registration (text_update alice "/unknown")
        = false).
Proof.
  assert (Hregistered :
            echo_registration ∈ handlers (setup_handlers (build "secret"))).
  { simpl. do 2 apply list_elem_of_further. apply list_elem_of_here. }
  split; [exact Hregistered |]. split; [reflexivity |].
  apply (echo_skips_commands "secret" echo_registration
           (text_update alice "/unknown") Hregistered).
  reflexivity.
Defined.

Lemma exceptions_propagate_witness :
  (get_messages (effective_user (anonymous_update "ping"))
   = Raise (AttributeError "NoneType" "is_premium")
   /\ (__call__ delivers EchoHandler (anonymous_update "ping") fresh).1
      = Raise (AttributeError "NoneType" "is_premium")
   /\ outbox (__call__ delivers EchoHandler (anonymous_update "ping") fresh).2
      = outbox fresh)
  /\ (unreachable 1 "hello!" = Some (NetworkError "timed out")
      /\ (__call__ unreachable StartHandler
            (text_update alice "/start") fresh).1
         = Raise (NetworkError "timed out")
      /\ outbox
           (__call__ unreachable StartHandler
              (text_update alice "/start") fresh).2
         = outbox fresh).
Proof.
  split; (split; [reflexivity |]).
  - apply (exceptions_propagate delivers EchoHandler
             (anonymous_update "ping") fresh
             (AttributeError "NoneType" "is_premium")).
    left. reflexivity.
  - apply (exceptions_propagate unreachable StartHandler
             (text_update alice "/start") fresh (NetworkError "timed out")).
    right. right.
    exists PremiumUser, {| chat_id := 1; text := Some "/start" |}.
    split; [reflexivity |]. split; reflexivity.
Defined.

(** With a builder that refuses the empty token, [main] without [TOKEN]
    raises after its one read and sets up nothing; with a token the builder
    accepts, it sets up the three handlers. *)
Example main_without_token :
  main.main rejects_empty {| main.environ := ∅; main.getenv_calls := [] |}
  = (Raise (TelegramError "InvalidToken"),
     {| main.environ := ∅; main.getenv_calls := ["TOKEN"] |})
  /\ (main.main rejects_empty
        {| main.environ := {["TOKEN" := "secret"]};
           main.getenv_calls := [] |}).1
     = Ok application.
Proof.
  unfold main.main, main.getenv, main.build_application, bind, get. simpl.
  by rewrite lookup_empty, lookup_singleton_eq.
Qed.

(** C4, as stated, fails: a handler that is invoked for an update does not
    always send a reply.  The echo handler is triggered by the text "ping"
    of an update without a user and raises while it resolves the provider;
    a handler invoked for an update without a message raises at the lookup
    of [reply_text]; and when the Bot API call raises, the reply was not
    sent.  In each case the invocation ends with no reply. *)
Lemma handled_update_without_reply :
  (check_update echo_registration (anonymous_update "ping") = true
   /\ __call__ delivers EchoHandler (anonymous_update "ping") fresh
      = (Raise (AttributeError "NoneType" "is_premium"), fresh))
  /\ __call__ delivers StartHandler (messageless_update alice) fresh
     = (Raise (AttributeError "NoneType" "reply_text"),
        {| self := {| user := Some alice; messages := Some PremiumUser |};
           outbox := [] |})
  /\ __call__ unreachable EchoHandler (text_update alice "ping") fresh
     = (Raise (NetworkError "timed out"),
        {| self := {| user := Some alice; messages := Some PremiumUser |};
           outbox := [] |})
  /\ ~ (forall c update fr,
          exists r,
            outbox (__call__ delivers c update fr).2
            = (outbox fr ++ [r])%list).
Proof.
  split; [by split |]. split; [reflexivity |]. split; [reflexivity |].
  intros Hone.
  destruct (Hone EchoHandler (anonymous_update "ping") fresh) as [r Hr].
  discriminate Hr.
Qed.

(** C6, as stated, fails: [setup_handlers] registers one [StartHandler]
    instance, which every [/start] invocation is called on; once it has been
    called for a user, the instance holds that user and the user's
    provider, and this is the instance the next invocation starts from.  An
    invocation therefore does write state that outlives it. *)
Lemma handler_instance_keeps_user :
  callback_of <$> handlers application !! 0%nat = Some (new StartHandler)
  /\ (invoke delivers (new StartHandler) (text_update alice "/start") []).1.2
     = {| class_of := StartHandler;
          attrs := {| user := Some alice; messages := Some PremiumUser |} |}
  /\ (invoke delivers (new StartHandler) (text_update alice "/start") []).1.2
     <> new StartHandler
  /\ ~ (forall c update fr,
          self (__call__ delivers c update fr).2 = self fr).
Proof.
  split; [reflexivity |]. split; [reflexivity |]. split.
  - discriminate.
  - intros Hsame.
    specialize (Hsame StartHandler (text_update alice "/start") fresh).
    discriminate Hsame.
Qed.

End Concrete.

(** ** Further properties of the providers *)

Section ProviderEdges.

Implicit Types (u : User) (e : exn).

(** X1: [get_messages] raises exactly when it is given no user, and what it
    raises is the failed lookup of [is_premium] on [None]; for every user,
    whatever the flag, it returns a provider. *)
Theorem get_messages_raises_iff (user : option User) e :
  (get_messages user = Raise e
   <-> user = None /\ e = AttributeError "NoneType" "is_premium")
  /\ (forall u, exists p, get_messages (Some u) = Ok p).
Proof.
  split.
  - destruct user as [u |].
    + rewrite get_messages_some. split; [discriminate |].
      by intros [[=] _].
    + simpl. split.
      * by intros [= <-].
      * by intros [_ ->].
  - intros u. rewrite get_messages_some. by eexists.
Qed.

(** X2: the provider is of class [RegularUser] exactly for the users whose
    premium flag is [True]; a flag that is [False] or absent gives
    [PremiumUser]. *)
Theorem provider_class_by_flag u :
  (get_messages (Some u) = Ok RegularUser <-> is_premium u = Some true)
  /\ (get_messages (Some u) = Ok PremiumUser <-> is_premium u <> Some true).
Proof.
  rewrite get_messages_some.
  destruct (is_premium u) as [[|] |]; simpl; split; split;
    congruence.
Qed.

End ProviderEdges.

(** ** Further properties of the handlers *)

Section HandlerEdges.

Variable send_message : Z -> string -> option exn.

Implicit Types (c : HandlerClass) (update : Update) (fr : Frame)
  (m : Message) (p : BaseMessages) (e : exn).

Lemma app_singleton_neq {A} (l : list A) (x : A) : (l ++ [x])%list <> l.
Proof.
  intros Heq. apply (f_equal List.length) in Heq.
  rewrite List.length_app in Heq. simpl in Heq. lia.
Qed.

(** X3: for a message that has no text, [EchoHandler] replies with the word
    "None", which is how the f-string in [echo] formats a missing text. *)
Theorem echo_handler_without_text update fr (usr : User) m
    (Huser : effective_user update = Some usr)
    (Hmessage : message update = Some m)
    (Htext : text m = None)
    (Hsend : send_message (chat_id m) "None" = None) :
  (__call__ send_message EchoHandler update fr).1 = Ok tt
  /\ outbox (__call__ send_message EchoHandler update fr).2
     = (outbox fr ++ [{| to_chat := chat_id m; body := "None" |}])%list.
Proof.
  rewrite call_cases, Huser, get_messages_some, Hmessage. simpl.
  rewrite echo_fstring, Htext. simpl. by rewrite Hsend.
Qed.

(** X4: a callback sends at most one reply per invocation and never touches
    the replies sent before: it returns normally exactly when it has added
    one reply, and it raises exactly when it has added none. *)
Theorem callback_sends_at_most_one_reply c update fr :
  ((__call__ send_message c update fr).1 = Ok tt
   <-> exists r,
        outbox (__call__ send_message c update fr).2
        = (outbox fr ++ [r])%list)
  /\ ((exists e, (__call__ send_message c update fr).1 = Raise e)
      <-> outbox (__call__ send_message c update fr).2 = outbox fr).
Proof.
  rewrite call_cases.
  destruct (get_messages (effective_user update)) as [p | e0].
  - destruct (message update) as [m |].
    + destruct (send_message (chat_id m) (reply_argument c p m)) as [e1 |];
        simpl.
      * split; split; try done.
        -- intros [r Hr]. symmetry in Hr. by apply app_singleton_neq in Hr.
        -- by exists e1.
      * split; split; try done.
        -- by eexists.
        -- by intros [e [=]].
        -- intros Hr. by apply app_singleton_neq in Hr.
    + simpl. split; split; try done.
      * intros [r Hr]. symmetry in Hr. by apply app_singleton_neq in Hr.
      * by eexists.
  - simpl. split; split; try done.
    + intros [r Hr]. symmetry in Hr. by apply app_singleton_neq in Hr.
    + by exists e0.
Qed.

(** X5: an invocation for an update without a user raises after it has
    assigned [self.user]: the instance is left with [user] set to [None]
    and with the provider of whatever invocation came before, and nothing
    is sent. *)
Theorem failed_resolution_keeps_old_provider c update fr
    (Hnouser : effective_user update = None) :
  __call__ send_message c update fr
  = (Raise (AttributeError "NoneType" "is_premium"),
     {| self := {| user := None; messages := messages (self fr) |};
        outbox := outbox fr |}).
Proof. by rewrite call_cases, Hnouser. Qed.

(** X6: a handler instance called for a sequence of updates returns, for
    each update, what a new instance would return for it, and sends, in the
    order of the updates, what new instances would send, after the replies
    sent before. *)
Theorem call_each_like_new_instances c (updates : list Update) fr :
  (call_each send_message c updates fr).1
  = List.map
      (fun update =>
         (__call__ send_message c update
            {| self := __init__; outbox := [] |}).1)
      updates
  /\ outbox (call_each send_message c updates fr).2
     = (outbox fr
        ++ List.flat_map
             (fun update =>
                outbox
                  (__call__ send_message c update
                     {| self := __init__; outbox := [] |}).2)
             updates)%list.
Proof.
  revert fr. induction updates as [| update rest IH]; intros fr; simpl.
  - by rewrite app_nil_r.
  - destruct (call_outcome send_message c update) as (r0 & sent & Hout).
    destruct (Hout fr) as [Hr Hsent].
    destruct (Hout {| self := __init__; outbox := [] |}) as [Hr0 Hsent0].
    simpl in Hsent0. rewrite Hr0, Hsent0.
    destruct (__call__ send_message c update fr) as [r fr1].
    simpl in Hr, Hsent. subst r.
    destruct (IH fr1) as [IHr IHsent].
    destruct (call_each send_message c rest fr1) as [rs fr2].
    simpl in *. split.
    + by rewrite IHr.
    + by rewrite IHsent, Hsent, <- app_assoc.
Qed.

(** X7: [handle] called on an instance whose [messages] was never assigned,
    that is without going through [__call__], raises and sends nothing: the
    lookup of [reply_text] fails first when the update has no message, the
    lookup of [self.messages] otherwise. *)
Theorem handle_before_call_raises c update fr
    (Hunset : messages (self fr) = None) :
  handle send_message c update fr
  = (Raise
       match message update with
       | Some _ => AttributeError (class_name c) "messages"
       | None => AttributeError "NoneType" "reply_text"
       end,
     fr).
Proof.
  unfold handle, bind, get_message_attr.
  destruct (message update) as [m |]; simpl; [| done].
  unfold get_self_messages, bind, get. by rewrite Hunset.
Qed.

(** X8: a callback returns normally only for an update that carries a user
    and a message and whose reply the Bot API delivered; the instance then
    holds that user and the provider selected for that user. *)
Theorem normal_return_means_delivered c update fr
    (Hok : (__call__ send_message c update fr).1 = Ok tt) :
  exists (usr : User) m p,
    effective_user update = Some usr
    /\ message update = Some m
    /\ get_messages (Some usr) = Ok p
    /\ send_message (chat_id m) (reply_argument c p m) = None
    /\ self (__call__ send_message c update fr).2
       = {| user := Some usr; messages := Some p |}.
Proof.
  rewrite call_cases in Hok |- *.
  destruct (effective_user update) as [usr |] eqn:Huser; [| done].
  destruct (get_messages (Some usr)) as [p | e0] eqn:Hp; [| done].
  destruct (message update) as [m |]; [| done].
  destruct (send_message (chat_id m) (reply_argument c p m)) as [e1 |] eqn:Hs;
    [done |].
  exists usr, m, p. unfold resolved. simpl. by rewrite Huser.
Qed.

End HandlerEdges.

(** ** The further properties at concrete inputs *)

Section ConcreteEdges.

Import samples.

Local Open Scope Z_scope.

(** A photo sent by [alice] is answered with the word "None". *)
Lemma echo_handler_without_text_witness :
  effective_user (textless_update alice) = Some alice
  /\ message (textless_update alice) = Some {| chat_id := 1; text := None |}
  /\ text {| chat_id := 1; text := None |} = None
  /\ delivers 1 "None" = None
  /\ (__call__ delivers EchoHandler (textless_update alice) fresh).1 = Ok tt
  /\ outbox (__call__ delivers EchoHandler (textless_update alice) fresh).2
     = (outbox fresh ++ [{| to_chat := 1; body := "None" |}])%list.
Proof.
  do 4 (split; [reflexivity |]).
  apply (echo_handler_without_text delivers (textless_update alice) fresh
           alice {| chat_id := 1; text := None |}); reflexivity.
Defined.

(** After a call for [bob], a call without a user leaves the instance with
    no user and with the provider selected for [bob]. *)
Lemma failed_resolution_keeps_old_provider_witness :
  effective_user (anonymous_update "ping") = None
  /\ __call__ delivers EchoHandler (anonymous_update "ping") used
     = (Raise (AttributeError "NoneType" "is_premium"),
        {| self := {| user := None; messages := messages (self used) |};
           outbox := outbox used |}).
Proof.
  split; [reflexivity |].
  apply (failed_resolution_keeps_old_provider delivers EchoHandler
           (anonymous_update "ping") used).
  reflexivity.
Defined.

Lemma handle_before_call_raises_witness :
  messages (self fresh) = None
  /\ handle delivers StartHandler (text_update alice "/start") fresh
     = (Raise
          match message (text_update alice "/start") with
          | Some _ => AttributeError (class_name StartHandler) "messages"
          | None => AttributeError "NoneType" "reply_text"
          end,
        fresh).
Proof.
  split; [reflexivity |].
  apply (handle_before_call_raises delivers StartHandler
           (text_update alice "/start") fresh).
  reflexivity.
Defined.

Lemma normal_return_means_delivered_witness :
  (__call__ delivers StartHandler (text_update bob "/start") fresh).1 = Ok tt
  /\ exists (usr : User) m p,
      effective_user (text_update bob "/start") = Some usr
      /\ message (text_update bob "/start") = Some m
      /\ get_messages (Some usr) = Ok p
      /\ delivers (chat_id m) (reply_argument StartHandler p m) = None
      /\ self (__call__ delivers StartHandler
                 (text_update bob "/start") fresh).2
         = {| user := Some usr; messages := Some p |}.
Proof.
  split; [reflexivity |].
  apply (normal_return_means_delivered delivers StartHandler
           (text_update bob "/start") fresh).
  reflexivity.
Defined.

End ConcreteEdges.
